(** * ark-project: the fulfil-listing hook and the orderbook deployer

    A shallow embedding of

    - [useFulfillListing] (React hook, TypeScript): [fulfillListing]
      sequences an ERC-20 approval and a listing fulfilment and tracks a
      [status] / [stepStatus] pair;
    - [declareDeploy] (scripts/deployer/contracts/orderbook.js): declares
      and deploys the orderbook contract and returns a contract object.

    Both are [async] functions whose only interesting behaviour is the
    order of their effects.  They are embedded in a small monad [Async]
    that threads a state (the React store, the outside world and a
    chronological trace of effects) and ends in the state of the promise
    the function returns: fulfilled, rejected, or pending for ever when
    an awaited call never settles. *)

From Stdlib Require Import ZArith List String Bool Lia.
From Stdlib Require Import Floats.SpecFloat.
Import ListNotations.

Local Open Scope string_scope.
Local Open Scope Z_scope.
Local Open Scope list_scope.

(** ** JavaScript values

    The hook handles [BigNumberish] values ([string | number | bigint])
    and optional ones ([undefined]).  Numbers are IEEE-754 binary64,
    taken from the standard library's specification of floats. *)

Module JS.

Definition prec : Z := 53.
Definition emax : Z := 1024.

Inductive value : Type :=
| Undefined
| Num (n : spec_float)
| Str (s : string)
| BigInt (z : Z).

(** [ToBoolean]: undefined, +0, -0, NaN, the empty string and 0n are
    falsy; everything else is truthy. *)
Definition ToBoolean (v : value) : bool :=
  match v with
  | Undefined => false
  | Num (S754_zero _) => false
  | Num S754_nan => false
  | Num _ => true
  | Str s => negb (String.eqb s EmptyString)
  | BigInt z => negb (Z.eqb z 0)
  end.

(** [a || b] *)
Definition or (a b : value) : value :=
  if ToBoolean a then a else b.

(** The number nearest to an integer, ties to even (the conversion of a
    bigint by [Number]). *)
Definition of_Z (z : Z) : spec_float :=
  binary_normalize prec emax z 0 false.

(** [Number(v)] called as a function.  [StringToNumber] is the
    language's parser for numeric strings. *)
Definition Number (StringToNumber : string -> spec_float) (v : value) : value :=
  match v with
  | Undefined => Num S754_nan
  | Num n => Num n
  | Str s => Num (StringToNumber s)
  | BigInt z => Num (of_Z z)
  end.

Definition is_number (v : value) : bool :=
  match v with
  | Num _ => true
  | _ => false
  end.

(** A thrown [Error] object. *)
Record Error : Type := new_Error { message : string }.

End JS.

(** ** Promises and [async] functions *)

Inductive Promise (A : Type) : Type :=
| Fulfilled (a : A)
| Rejected (e : JS.Error)
| Pending.

Arguments Fulfilled {A} a.
Arguments Rejected {A} e.
Arguments Pending {A}.

(** The body of an [async] function run on a state [S]: the state of
    the returned promise and the state left behind. *)
Definition Async (S A : Type) : Type := S -> Promise A * S.

Definition ret {S A : Type} (a : A) : Async S A :=
  fun s => (Fulfilled a, s).

Definition throw {S A : Type} (e : JS.Error) : Async S A :=
  fun s => (Rejected e, s).

Definition bind {S A B : Type} (m : Async S A) (k : A -> Async S B) : Async S B :=
  fun s =>
    match m s with
    | (Fulfilled a, s') => k a s'
    | (Rejected e, s') => (Rejected e, s')
    | (Pending, s') => (Pending, s')
    end.

(** [try { body } catch (error) { handler }]: a body that never settles
    is not caught. *)
Definition try_catch {S A : Type} (body : Async S A) (handler : JS.Error -> Async S A) : Async S A :=
  fun s =>
    match body s with
    | (Rejected e, s') => handler e s'
    | r => r
    end.

Declare Scope async_scope.
Delimit Scope async_scope with async.
Notation "x <- c ;; k" := (bind c (fun x => k))
  (at level 61, c at next level, right associativity) : async_scope.
Notation "c ;; k" := (bind c (fun _ => k))
  (at level 61, right associativity) : async_scope.

(** ** Data of the hook *)

(** Modelled from the spec: the [Status] type of [../types], one of
    idle, loading, success, error (section 3). *)
Module Status.

Inductive t : Type := idle | loading | success | error.

Definition to_string (s : t) : string :=
  match s with
  | idle => "idle"
  | loading => "loading"
  | success => "success"
  | error => "error"
  end.

End Status.

(** Modelled from the spec: the [StepStatus] type of [../types], one of
    idle, approving, selling, sold, error (section 3). *)
Module StepStatus.

Inductive t : Type := idle | approving | selling | sold | error.

Definition to_string (s : t) : string :=
  match s with
  | idle => "idle"
  | approving => "approving"
  | selling => "selling"
  | sold => "sold"
  | error => "error"
  end.

End StepStatus.

(** An account object; the hook only passes it on. *)
Record AccountInterface : Type := { address : string }.

(** Modelled from the spec: the configuration object of the core
    package, which supplies the network's contract addresses, among them
    the native-token address [starknetContracts.eth] (section 6). *)
Record StarknetContracts : Type := { eth : JS.value }.

Record Config : Type := { starknetContracts : StarknetContracts }.

(** [config?.starknetContracts.eth] *)
Definition config_eth (config : option Config) : JS.value :=
  match config with
  | Some c => eth (starknetContracts c)
  | None => JS.Undefined
  end.

(** The object given to [approveERC20]. *)
Module ApproveERC20Parameters.

Record t : Type := {
  starknetAccount : AccountInterface;
  startAmount : JS.value;
  currencyAddress : JS.value
}.

End ApproveERC20Parameters.

(** [fulfillListingParameters = ApproveERC20Parameters & FulfillListingInfo]:
    one flat record; [currencyAddress] is optional ([JS.Undefined] when
    omitted). *)
Module fulfillListingParameters.

Record t : Type := {
  starknetAccount : AccountInterface;
  startAmount : JS.value;
  currencyAddress : JS.value;
  orderHash : JS.value;
  tokenAddress : JS.value;
  tokenId : JS.value;
  brokerId : JS.value
}.

End fulfillListingParameters.

Module FulfillListingInfo.

Record t : Type := {
  orderHash : JS.value;
  tokenAddress : JS.value;
  tokenId : JS.value;
  brokerId : JS.value
}.

End FulfillListingInfo.

Module ApproveInfo.

Record t : Type := {
  currencyAddress : JS.value;
  amount : JS.value
}.

End ApproveInfo.

(** The object given to the core package's [fulfillListing]. *)
Module FulfillListingCoreParameters.

Record t : Type := {
  starknetAccount : AccountInterface;
  fulfillListingInfo : FulfillListingInfo.t;
  approveInfo : ApproveInfo.t
}.

End FulfillListingCoreParameters.

(** The effects of the hook, in the order they happen. *)
Inductive Event : Type :=
| SetStatus (s : Status.t)
| SetStepStatus (s : StepStatus.t)
| CallApproveERC20 (a : ApproveERC20Parameters.t)
| CallFulfillListingCore (config : option Config) (f : FulfillListingCoreParameters.t)
| ConsoleError (e : JS.Error).

(** What the hook calls and does not define: the two awaited
    operations, which act on the outside world (wallet, chain) and
    settle or not, and the language's [Number] on strings. *)
Class Collaborators : Type := {
  World : Type;
  StringToNumber : string -> spec_float;
  approveERC20 :
    ApproveERC20Parameters.t -> World -> Promise unit * World;
  fulfillListingCore :
    option Config -> FulfillListingCoreParameters.t -> World -> Promise unit * World
}.

(** The state [fulfillListing] runs on: the two [useState] cells, the
    outside world and the effects so far. *)
Record HookState `{Collaborators} : Type := {
  status : Status.t;
  stepStatus : StepStatus.t;
  world : World;
  trace : list Event
}.

Section Hook.

Context `{C : Collaborators}.

Definition setStatus (v : Status.t) : Async HookState unit :=
  fun st =>
    (Fulfilled tt,
     {| status := v; stepStatus := stepStatus st; world := world st;
        trace := trace st ++ [SetStatus v] |}).

Definition setStepStatus (v : StepStatus.t) : Async HookState unit :=
  fun st =>
    (Fulfilled tt,
     {| status := status st; stepStatus := v; world := world st;
        trace := trace st ++ [SetStepStatus v] |}).

Definition console_error (e : JS.Error) : Async HookState unit :=
  fun st =>
    (Fulfilled tt,
     {| status := status st; stepStatus := stepStatus st; world := world st;
        trace := trace st ++ [ConsoleError e] |}).

(** [await approveERC20(a)] *)
Definition await_approveERC20 (a : ApproveERC20Parameters.t) : Async HookState unit :=
  fun st =>
    let (p, w) := approveERC20 a (world st) in
    (p,
     {| status := status st; stepStatus := stepStatus st; world := w;
        trace := trace st ++ [CallApproveERC20 a] |}).

(** [await fulfillListingCore(config as Config, f)] *)
Definition await_fulfillListingCore (config : option Config)
    (f : FulfillListingCoreParameters.t) : Async HookState unit :=
  fun st =>
    let (p, w) := fulfillListingCore config f (world st) in
    (p,
     {| status := status st; stepStatus := stepStatus st; world := w;
        trace := trace st ++ [CallFulfillListingCore config f] |}).

(** The object literal of lines 33-38. *)
Definition approveERC20_arguments (config : option Config)
    (parameters : fulfillListingParameters.t) : ApproveERC20Parameters.t :=
  {| ApproveERC20Parameters.starknetAccount :=
       fulfillListingParameters.starknetAccount parameters;
     ApproveERC20Parameters.startAmount :=
       JS.Number StringToNumber (fulfillListingParameters.startAmount parameters);
     ApproveERC20Parameters.currencyAddress :=
       JS.or (fulfillListingParameters.currencyAddress parameters) (config_eth config) |}.

(** The object literal of lines 40-53. *)
Definition fulfillListingCore_arguments (config : option Config)
    (parameters : fulfillListingParameters.t) : FulfillListingCoreParameters.t :=
  {| FulfillListingCoreParameters.starknetAccount :=
       fulfillListingParameters.starknetAccount parameters;
     FulfillListingCoreParameters.fulfillListingInfo :=
       {| FulfillListingInfo.orderHash := fulfillListingParameters.orderHash parameters;
          FulfillListingInfo.tokenAddress := fulfillListingParameters.tokenAddress parameters;
          FulfillListingInfo.tokenId := fulfillListingParameters.tokenId parameters;
          FulfillListingInfo.brokerId := fulfillListingParameters.brokerId parameters |};
     FulfillListingCoreParameters.approveInfo :=
       {| ApproveInfo.currencyAddress :=
            JS.or (fulfillListingParameters.currencyAddress parameters) (config_eth config);
          ApproveInfo.amount := fulfillListingParameters.startAmount parameters |} |}.

(** [fulfillListing], with the values of [useBurnerWallet()] and
    [useConfig()] the closure captured. *)
Definition fulfillListing (arkAccount : option AccountInterface)
    (config : option Config) (parameters : fulfillListingParameters.t)
    : Async HookState unit :=
  match arkAccount with
  | None => throw (JS.new_Error "No burner wallet.")
  | Some _ =>
      try_catch
        (setStatus Status.loading ;;
         setStepStatus StepStatus.approving ;;
         await_approveERC20 (approveERC20_arguments config parameters) ;;
         setStepStatus StepStatus.selling ;;
         await_fulfillListingCore config (fulfillListingCore_arguments config parameters) ;;
         setStatus Status.success ;;
         setStepStatus StepStatus.sold)%async
        (fun error =>
           console_error error ;;
           setStatus Status.error ;;
           setStepStatus StepStatus.error)%async
  end.

(** The external calls among some events, in order. *)
Definition is_call (e : Event) : bool :=
  match e with
  | CallApproveERC20 _ => true
  | CallFulfillListingCore _ _ => true
  | _ => false
  end.

Definition calls (l : list Event) : list Event := filter is_call l.

(** The writes to [status] and [stepStatus] among some events, in order. *)
Definition is_write (e : Event) : bool :=
  match e with
  | SetStatus _ => true
  | SetStepStatus _ => true
  | _ => false
  end.

Definition writes (l : list Event) : list Event := filter is_write l.

End Hook.

(** ** Data of the deployer script *)

(** A parsed JSON document the script never looks into. *)
Definition Json : Type := string.

(** A synchronous call that returns or throws. *)
Inductive Completion (A : Type) : Type :=
| Normal (a : A)
| Abrupt (e : JS.Error).

Arguments Normal {A} a.
Arguments Abrupt {A} e.

Definition sync {S A : Type} (c : Completion A) : Async S A :=
  fun s =>
    match c with
    | Normal a => (Fulfilled a, s)
    | Abrupt e => (Rejected e, s)
    end.

Record CompiledSierra : Type := { abi : Json; sierra_program : Json }.

Record Artifacts : Type := { sierra : CompiledSierra; casm : Json }.

(** [new sn.CallData(abi)] *)
Record CallData : Type := new_CallData { CallData_abi : Json }.

Record ConstructorData : Type := { admin : JS.value }.

Definition Calldata : Type := list string.

Module DeclareAndDeployContractPayload.

Record t : Type := {
  contract : CompiledSierra;
  casm : Json;
  constructorCalldata : Calldata;
  salt : Z
}.

End DeclareAndDeployContractPayload.

Record DeployContractUDCResponse : Type := {
  contract_address : string;
  transaction_hash : string
}.

Record DeclareDeployUDCResponse : Type := {
  declare : Json;
  deploy : DeployContractUDCResponse
}.

Record Provider : Type := { nodeUrl : string }.

(** [new sn.Contract(abi, address, providerOrAccount)] *)
Record Contract : Type := new_Contract {
  Contract_abi : Json;
  Contract_address : string;
  Contract_providerOrAccount : Provider
}.

(** The requests the script sends through the account. *)
Inductive Request : Type :=
| DeclareAndDeploy (account : AccountInterface) (payload : DeclareAndDeployContractPayload.t).

(** What the script calls and does not define: [common.load_artifacts]
    (reads the disk), [CallData.compile] and the account's
    [declareAndDeploy]. *)
Class Toolchain : Type := {
  Outside : Type;
  load_artifacts : string -> string -> Outside -> Completion Artifacts;
  compile : CallData -> string -> list (string * JS.value) -> Completion Calldata;
  declareAndDeploy :
    AccountInterface -> DeclareAndDeployContractPayload.t -> Outside ->
    Promise DeclareDeployUDCResponse * Outside
}.

Record ScriptState `{Toolchain} : Type := {
  outside : Outside;
  requests : list Request
}.

Section Deployer.

Context `{T : Toolchain}.

(** [common.load_artifacts(path, name)] *)
Definition common_load_artifacts (path name : string) : Async ScriptState Artifacts :=
  fun st => sync (load_artifacts path name (outside st)) st.

(** [await account.declareAndDeploy(payload)] *)
Definition await_declareAndDeploy (account : AccountInterface)
    (payload : DeclareAndDeployContractPayload.t)
    : Async ScriptState DeclareDeployUDCResponse :=
  fun st =>
    let (p, o) := declareAndDeploy account payload (outside st) in
    (p, {| outside := o; requests := requests st ++ [DeclareAndDeploy account payload] |}).

(** The payload of lines 20-25. *)
Definition declareAndDeploy_payload (artifacts : Artifacts)
    (contractConstructor : Calldata) : DeclareAndDeployContractPayload.t :=
  {| DeclareAndDeployContractPayload.contract := sierra artifacts;
     DeclareAndDeployContractPayload.casm := casm artifacts;
     DeclareAndDeployContractPayload.constructorCalldata := contractConstructor;
     DeclareAndDeployContractPayload.salt := 0x7777 |}.

Definition declareDeploy (artifacts_path : string) (account : AccountInterface)
    (provider : Provider) (constructorData : ConstructorData)
    : Async ScriptState Contract :=
  (artifacts <- common_load_artifacts artifacts_path "arkchain_orderbook" ;;
   let contractCallData := new_CallData (abi (sierra artifacts)) in
   contractConstructor <-
     sync (compile contractCallData "constructor" [("admin", admin constructorData)]) ;;
   deployR <-
     await_declareAndDeploy account (declareAndDeploy_payload artifacts contractConstructor) ;;
   ret (new_Contract (abi (sierra artifacts)) (contract_address (deploy deployR)) provider))%async.

End Deployer.

(** The state of the hook at its first render: both [useState] cells
    hold "idle" (lines 22-23) and nothing has happened yet. *)
Definition first_render `{Collaborators} (w : World) : HookState :=
  {| status := Status.idle; stepStatus := StepStatus.idle; world := w; trace := [] |}.

(** ** A small concrete world

    A ledger on which the two operations and the deployment can be run,
    so that every statement below can be evaluated on actual inputs. *)

Module Demo.

Record Ledger : Type := {
  allowances : list (string * JS.value * JS.value);
  sales : list JS.value
}.

Definition digit (c : Ascii.ascii) : option Z :=
  let n := Z.of_N (Ascii.N_of_ascii c) in
  if (48 <=? n) && (n <=? 57) then Some (n - 48) else None.

Fixpoint decimal (s : string) (acc : Z) : option Z :=
  match s with
  | EmptyString => Some acc
  | String c s' =>
      match digit c with
      | Some d => decimal s' (10 * acc + d)
      | None => None
      end
  end.

(** Strings of decimal digits only; any other string reads as NaN. *)
Definition StringToNumber (s : string) : spec_float :=
  match decimal s 0 with
  | Some z => JS.of_Z z
  | None => S754_nan
  end.

(** Approval is refused without a currency, is never signed by the
    account with the empty address, and is recorded otherwise. *)
Definition approveERC20 (a : ApproveERC20Parameters.t) (w : Ledger)
    : Promise unit * Ledger :=
  if negb (JS.ToBoolean (ApproveERC20Parameters.currencyAddress a)) then
    (Rejected (JS.new_Error "Invalid currency."), w)
  else if String.eqb (address (ApproveERC20Parameters.starknetAccount a)) EmptyString then
    (Pending, w)
  else
    (Fulfilled tt,
     {| allowances :=
          (address (ApproveERC20Parameters.starknetAccount a),
           ApproveERC20Parameters.currencyAddress a,
           ApproveERC20Parameters.startAmount a) :: allowances w;
        sales := sales w |}).

(** Fulfilment is refused without a configuration or an order hash. *)
Definition fulfillListingCore (config : option Config)
    (f : FulfillListingCoreParameters.t) (w : Ledger) : Promise unit * Ledger :=
  match config with
  | None => (Rejected (JS.new_Error "Invalid config."), w)
  | Some _ =>
      let h := FulfillListingInfo.orderHash (FulfillListingCoreParameters.fulfillListingInfo f) in
      if JS.ToBoolean h then
        (Fulfilled tt, {| allowances := allowances w; sales := h :: sales w |})
      else
        (Rejected (JS.new_Error "Order not found."), w)
  end.

Definition collaborators : Collaborators :=
  Build_Collaborators Ledger StringToNumber approveERC20 fulfillListingCore.

Definition empty_ledger : Ledger := {| allowances := []; sales := [] |}.

Definition start : @HookState collaborators :=
  @first_render collaborators empty_ledger.

Definition wallet : AccountInterface := {| address := "0xb0b" |}.

Definition buyer : AccountInterface := {| address := "0xa11ce" |}.

Definition config : Config :=
  {| starknetContracts := {| eth := JS.Str "0x49d36570d4e46f48e99674bd3fcc84644ddd6b96f7c741b1562b82f9e004dc7" |} |}.

(** A listing paid in the default currency. *)
Definition listing : fulfillListingParameters.t :=
  {| fulfillListingParameters.starknetAccount := buyer;
     fulfillListingParameters.startAmount := JS.Num (JS.of_Z 100);
     fulfillListingParameters.currencyAddress := JS.Undefined;
     fulfillListingParameters.orderHash := JS.BigInt 0x1234;
     fulfillListingParameters.tokenAddress := JS.Str "0x7e57";
     fulfillListingParameters.tokenId := JS.BigInt 42;
     fulfillListingParameters.brokerId := JS.BigInt 1 |}.

(** The same listing without an order hash. *)
Definition unknown_listing : fulfillListingParameters.t :=
  {| fulfillListingParameters.starknetAccount := buyer;
     fulfillListingParameters.startAmount := JS.Num (JS.of_Z 100);
     fulfillListingParameters.currencyAddress := JS.Undefined;
     fulfillListingParameters.orderHash := JS.Undefined;
     fulfillListingParameters.tokenAddress := JS.Str "0x7e57";
     fulfillListingParameters.tokenId := JS.BigInt 42;
     fulfillListingParameters.brokerId := JS.BigInt 1 |}.

(** A listing whose amount is the bigint 2^53 + 1. *)
Definition bigint_listing : fulfillListingParameters.t :=
  {| fulfillListingParameters.starknetAccount := buyer;
     fulfillListingParameters.startAmount := JS.BigInt 9007199254740993;
     fulfillListingParameters.currencyAddress := JS.Str "0x57a8c";
     fulfillListingParameters.orderHash := JS.BigInt 0x1234;
     fulfillListingParameters.tokenAddress := JS.Str "0x7e57";
     fulfillListingParameters.tokenId := JS.BigInt 42;
     fulfillListingParameters.brokerId := JS.BigInt 1 |}.

(** A listing whose amount is the string "100". *)
Definition string_listing : fulfillListingParameters.t :=
  {| fulfillListingParameters.starknetAccount := buyer;
     fulfillListingParameters.startAmount := JS.Str "100";
     fulfillListingParameters.currencyAddress := JS.Str "0x57a8c";
     fulfillListingParameters.orderHash := JS.BigInt 0x1234;
     fulfillListingParameters.tokenAddress := JS.Str "0x7e57";
     fulfillListingParameters.tokenId := JS.BigInt 42;
     fulfillListingParameters.brokerId := JS.BigInt 1 |}.

(** A listing bought through the account that never signs. *)
Definition unsigned_listing : fulfillListingParameters.t :=
  {| fulfillListingParameters.starknetAccount := {| address := EmptyString |};
     fulfillListingParameters.startAmount := JS.Num (JS.of_Z 100);
     fulfillListingParameters.currencyAddress := JS.Undefined;
     fulfillListingParameters.orderHash := JS.BigInt 0x1234;
     fulfillListingParameters.tokenAddress := JS.Str "0x7e57";
     fulfillListingParameters.tokenId := JS.BigInt 42;
     fulfillListingParameters.brokerId := JS.BigInt 1 |}.

(** The deployer's side: a disk with one artifact directory and a chain
    that counts the contracts deployed on it. *)
Definition orderbook_artifacts : Artifacts :=
  {| sierra := {| abi := "[constructor(admin)]"; sierra_program := "0x1" |};
     casm := "0x2" |}.

Definition load_artifacts (path name : string) (deployed : nat) : Completion Artifacts :=
  if String.eqb path "./artifacts" && String.eqb name "arkchain_orderbook" then
    Normal orderbook_artifacts
  else
    Abrupt (JS.new_Error "ENOENT").

Definition compile (c : CallData) (method : string) (args : list (string * JS.value))
    : Completion Calldata :=
  match args with
  | [(_, JS.Str s)] => Normal [s]
  | _ => Abrupt (JS.new_Error "Validate: arg admin should be a felt")
  end.

Definition declareAndDeploy (account : AccountInterface)
    (payload : DeclareAndDeployContractPayload.t) (deployed : nat)
    : Promise DeclareDeployUDCResponse * nat :=
  if String.eqb (address account) EmptyString then
    (Rejected (JS.new_Error "Account not found."), deployed)
  else
    (Fulfilled
       {| declare := "0xc1a55";
          deploy := {| contract_address := "0xdeadbeef"; transaction_hash := "0xabc" |} |},
     S deployed).

Definition toolchain : Toolchain :=
  Build_Toolchain nat load_artifacts compile declareAndDeploy.

Definition script_start : @ScriptState toolchain :=
  @Build_ScriptState toolchain 0%nat [].

Definition provider : Provider := {| nodeUrl := "http://localhost:7777" |}.

Definition constructorData : ConstructorData := {| admin := JS.Str "0xad" |}.

End Demo.

(** ** Several invocations *)

(** The arguments of [console.error] among some events, in order. *)
Definition logged (l : list Event) : list JS.Error :=
  flat_map (fun e => match e with ConsoleError x => [x] | _ => [] end) l.

(** The states the hook can be in once every invocation made so far has
    settled: it starts at the first render; an invocation, with whatever
    wallet, configuration and parameters the render in force supplies,
    leads to the state it leaves when its promise settles; in between,
    the outside world may move on by itself. *)
Inductive reachable `{Collaborators} : HookState -> Prop :=
| reach_first_render (w : World) : reachable (first_render w)
| reach_invocation (st : HookState) (arkAccount : option AccountInterface)
    (config : option Config) (parameters : fulfillListingParameters.t) :
    reachable st ->
    fst (fulfillListing arkAccount config parameters st) <> Pending ->
    reachable (snd (fulfillListing arkAccount config parameters st))
| reach_outside (st : HookState) (w : World) :
    reachable st ->
    reachable {| status := status st; stepStatus := stepStatus st;
                 world := w; trace := trace st |}.

(** A ledger on which an allowance was granted outside the hook. *)
Definition later_ledger : Demo.Ledger :=
  {| Demo.allowances := [("0xa11ce", JS.Str "0x57a8c", JS.Num (JS.of_Z 7))];
     Demo.sales := [] |}.

(** The demo hook after a run that failed for want of a configuration,
    and the same once the ledger has moved on. *)
Definition after_failure : @HookState Demo.collaborators :=
  snd (@fulfillListing Demo.collaborators (Some Demo.wallet) None Demo.listing Demo.start).

Definition after_failure_later : @HookState Demo.collaborators :=
  @Build_HookState Demo.collaborators (status after_failure) (stepStatus after_failure)
    later_ledger (trace after_failure).

(** The account the demo chain does not know. *)
Definition unknown_account : AccountInterface := {| address := EmptyString |}.

(** * Properties of [fulfillListing] *)

Ltac run_hook :=
  unfold fulfillListing, try_catch, bind, throw, ret, setStatus, setStepStatus,
    console_error, await_approveERC20, await_fulfillListingCore;
  simpl.

Ltac flatten_trace :=
  repeat rewrite <- app_assoc; simpl.

(** Each element of an explicit list is among those of another. *)
Ltac only_listed_writes :=
  repeat (apply Forall_cons; [simpl; auto 10 |]); apply Forall_nil.

(** Split a membership in an explicit list into its cases. *)
Ltac split_In H :=
  repeat match type of H with
         | _ \/ _ => destruct H as [H | H]
         | False => contradiction
         end.

Section HookFacts.

Context `{C : Collaborators}.

Variables (acct : AccountInterface) (config : option Config).
Variable parameters : fulfillListingParameters.t.
Variable st : HookState.

Let a := approveERC20_arguments config parameters.
Let f := fulfillListingCore_arguments config parameters.

(** The events up to and including each awaited call. *)
Let approving : list Event :=
  [SetStatus Status.loading; SetStepStatus StepStatus.approving; CallApproveERC20 a].
Let selling : list Event :=
  approving ++ [SetStepStatus StepStatus.selling; CallFulfillListingCore config f].

(** The five ways a run with a wallet can go, each with the state it
    leaves. *)
Lemma run_sold (w1 w2 : World) :
  approveERC20 a (world st) = (Fulfilled tt, w1) ->
  fulfillListingCore config f w1 = (Fulfilled tt, w2) ->
  fulfillListing (Some acct) config parameters st =
    (Fulfilled tt,
     {| status := Status.success; stepStatus := StepStatus.sold; world := w2;
        trace := trace st ++ selling ++
                 [SetStatus Status.success; SetStepStatus StepStatus.sold] |}).
Proof.
  intros Ha Hf. run_hook. fold a. rewrite Ha. simpl. fold f. rewrite Hf.
  simpl. flatten_trace. reflexivity.
Qed.

Lemma run_approval_rejected (e : JS.Error) (w1 : World) :
  approveERC20 a (world st) = (Rejected e, w1) ->
  fulfillListing (Some acct) config parameters st =
    (Fulfilled tt,
     {| status := Status.error; stepStatus := StepStatus.error; world := w1;
        trace := trace st ++ approving ++
                 [ConsoleError e; SetStatus Status.error; SetStepStatus StepStatus.error] |}).
Proof.
  intros Ha. run_hook. fold a. rewrite Ha. simpl. flatten_trace. reflexivity.
Qed.

Lemma run_approval_pending (w1 : World) :
  approveERC20 a (world st) = (Pending, w1) ->
  fulfillListing (Some acct) config parameters st =
    (Pending,
     {| status := Status.loading; stepStatus := StepStatus.approving; world := w1;
        trace := trace st ++ approving |}).
Proof.
  intros Ha. run_hook. fold a. rewrite Ha. simpl. flatten_trace. reflexivity.
Qed.

Lemma run_fulfilment_rejected (e : JS.Error) (w1 w2 : World) :
  approveERC20 a (world st) = (Fulfilled tt, w1) ->
  fulfillListingCore config f w1 = (Rejected e, w2) ->
  fulfillListing (Some acct) config parameters st =
    (Fulfilled tt,
     {| status := Status.error; stepStatus := StepStatus.error; world := w2;
        trace := trace st ++ selling ++
                 [ConsoleError e; SetStatus Status.error; SetStepStatus StepStatus.error] |}).
Proof.
  intros Ha Hf. run_hook. fold a. rewrite Ha. simpl. fold f. rewrite Hf.
  simpl. flatten_trace. reflexivity.
Qed.

Lemma run_fulfilment_pending (w1 w2 : World) :
  approveERC20 a (world st) = (Fulfilled tt, w1) ->
  fulfillListingCore config f w1 = (Pending, w2) ->
  fulfillListing (Some acct) config parameters st =
    (Pending,
     {| status := Status.loading; stepStatus := StepStatus.selling; world := w2;
        trace := trace st ++ selling |}).
Proof.
  intros Ha Hf. run_hook. fold a. rewrite Ha. simpl. fold f. rewrite Hf.
  simpl. flatten_trace. reflexivity.
Qed.

(** Every run with a wallet is one of the five above. *)
Lemma run_cases :
  (exists w1 w2,
      approveERC20 a (world st) = (Fulfilled tt, w1) /\
      fulfillListingCore config f w1 = (Fulfilled tt, w2)) \/
  (exists e w1, approveERC20 a (world st) = (Rejected e, w1)) \/
  (exists w1, approveERC20 a (world st) = (Pending, w1)) \/
  (exists e w1 w2,
      approveERC20 a (world st) = (Fulfilled tt, w1) /\
      fulfillListingCore config f w1 = (Rejected e, w2)) \/
  (exists w1 w2,
      approveERC20 a (world st) = (Fulfilled tt, w1) /\
      fulfillListingCore config f w1 = (Pending, w2)).
Proof.
  destruct (approveERC20 a (world st)) as [[[] | e | ] w1] eqn:Ha.
  - destruct (fulfillListingCore config f w1) as [[[] | e | ] w2] eqn:Hf.
    + left. eauto.
    + do 3 right. left. eauto.
    + do 4 right. eauto.
  - right. left. eauto.
  - do 2 right. left. eauto.
Qed.

(** C1. With a burner wallet, when [approveERC20] and then
    [fulfillListingCore] both return, [fulfillListing] completes with
    status "success" and stepStatus "sold". *)
Theorem fulfillListing_success (w1 w2 : World) :
  approveERC20 (approveERC20_arguments config parameters) (world st) = (Fulfilled tt, w1) ->
  fulfillListingCore config (fulfillListingCore_arguments config parameters) w1
    = (Fulfilled tt, w2) ->
  fst (fulfillListing (Some acct) config parameters st) = Fulfilled tt /\
  status (snd (fulfillListing (Some acct) config parameters st)) = Status.success /\
  stepStatus (snd (fulfillListing (Some acct) config parameters st)) = StepStatus.sold.
Proof.
  intros Ha Hf. rewrite (run_sold w1 w2 Ha Hf). simpl. auto.
Qed.

(** C2. With a burner wallet, when [approveERC20] throws,
    [fulfillListingCore] is never called (the approval is the only
    external call of the run), the error is logged, and the run
    completes with status and stepStatus both "error". *)
Theorem fulfillListing_approval_failure (e : JS.Error) (w1 : World) :
  approveERC20 (approveERC20_arguments config parameters) (world st) = (Rejected e, w1) ->
  fst (fulfillListing (Some acct) config parameters st) = Fulfilled tt /\
  status (snd (fulfillListing (Some acct) config parameters st)) = Status.error /\
  stepStatus (snd (fulfillListing (Some acct) config parameters st)) = StepStatus.error /\
  exists evs,
    trace (snd (fulfillListing (Some acct) config parameters st)) = trace st ++ evs /\
    calls evs = [CallApproveERC20 (approveERC20_arguments config parameters)] /\
    (forall c g, ~ In (CallFulfillListingCore c g) evs) /\
    In (ConsoleError e) evs.
Proof.
  intros Ha. rewrite (run_approval_rejected e w1 Ha). simpl.
  repeat split.
  eexists. split; [reflexivity |]. simpl. split; [reflexivity |]. split.
  - intros c g H. simpl in H.
    repeat (destruct H as [H | H]; [discriminate H |]). exact H.
  - simpl. auto 10.
Qed.

(** C3. With a burner wallet, when [approveERC20] returns and
    [fulfillListingCore] then throws, the run completes with status and
    stepStatus both "error"; the failed fulfilment is the last external
    call of the run, so nothing is called to undo the approval and the
    outside world is left as these two calls left it. *)
Theorem fulfillListing_fulfilment_failure (e : JS.Error) (w1 w2 : World) :
  approveERC20 (approveERC20_arguments config parameters) (world st) = (Fulfilled tt, w1) ->
  fulfillListingCore config (fulfillListingCore_arguments config parameters) w1
    = (Rejected e, w2) ->
  fst (fulfillListing (Some acct) config parameters st) = Fulfilled tt /\
  status (snd (fulfillListing (Some acct) config parameters st)) = Status.error /\
  stepStatus (snd (fulfillListing (Some acct) config parameters st)) = StepStatus.error /\
  world (snd (fulfillListing (Some acct) config parameters st)) = w2 /\
  exists evs,
    trace (snd (fulfillListing (Some acct) config parameters st)) = trace st ++ evs /\
    calls evs =
      [CallApproveERC20 (approveERC20_arguments config parameters);
       CallFulfillListingCore config (fulfillListingCore_arguments config parameters)].
Proof.
  intros Ha Hf. rewrite (run_fulfilment_rejected e w1 w2 Ha Hf). simpl.
  repeat split. eexists. split; reflexivity.
Qed.

(** The external calls of a run: the approval, and the fulfilment
    exactly when the approval returned. *)
Lemma run_calls :
  exists evs,
    trace (snd (fulfillListing (Some acct) config parameters st)) = trace st ++ evs /\
    calls evs =
      match fst (approveERC20 a (world st)) with
      | Fulfilled _ => [CallApproveERC20 a; CallFulfillListingCore config f]
      | _ => [CallApproveERC20 a]
      end.
Proof.
  destruct run_cases as
    [(w1 & w2 & Ha & Hf) | [(e & w1 & Ha) | [(w1 & Ha) |
      [(e & w1 & w2 & Ha & Hf) | (w1 & w2 & Ha & Hf)]]]].
  - rewrite (run_sold w1 w2 Ha Hf), Ha. eexists. split; reflexivity.
  - rewrite (run_approval_rejected e w1 Ha), Ha. eexists. split; reflexivity.
  - rewrite (run_approval_pending w1 Ha), Ha. eexists. split; reflexivity.
  - rewrite (run_fulfilment_rejected e w1 w2 Ha Hf), Ha. eexists. split; reflexivity.
  - rewrite (run_fulfilment_pending w1 w2 Ha Hf), Ha. eexists. split; reflexivity.
Qed.

Lemma In_calls (e : Event) (evs : list Event) :
  is_call e = true -> In e evs -> In e (calls evs).
Proof.
  intros He Hin. apply filter_In. split; assumption.
Qed.

(** [a || b] is [b] when [a] is falsy. *)
Lemma or_falsy (x y : JS.value) : JS.ToBoolean x = false -> JS.or x y = y.
Proof.
  intros H. unfold JS.or. rewrite H. reflexivity.
Qed.

(** [Number] leaves a number as it is. *)
Lemma Number_of_number (x : JS.value) :
  JS.is_number x = true -> JS.Number StringToNumber x = x.
Proof.
  destruct x; simpl; intros H; try discriminate H. reflexivity.
Qed.

(** C4. When [currencyAddress] is falsy and the configuration is
    present, the run calls [approveERC20] with
    [config.starknetContracts.eth] as currency address, and every call
    it makes to [approveERC20] or to [fulfillListingCore] carries that
    address; the fulfilment call is made whenever the approval
    returned. *)
Theorem fulfillListing_default_currency (cfg : Config) :
  config = Some cfg ->
  JS.ToBoolean (fulfillListingParameters.currencyAddress parameters) = false ->
  exists evs,
    trace (snd (fulfillListing (Some acct) config parameters st)) = trace st ++ evs /\
    (exists a0, In (CallApproveERC20 a0) evs) /\
    (forall a0,
        In (CallApproveERC20 a0) evs ->
        ApproveERC20Parameters.currencyAddress a0 = eth (starknetContracts cfg)) /\
    (forall c g,
        In (CallFulfillListingCore c g) evs ->
        ApproveInfo.currencyAddress (FulfillListingCoreParameters.approveInfo g)
          = eth (starknetContracts cfg)) /\
    (fst (approveERC20 (approveERC20_arguments config parameters) (world st)) = Fulfilled tt ->
     exists c g, In (CallFulfillListingCore c g) evs).
Proof.
  intros Hcfg Hfalsy.
  assert (Ea : ApproveERC20Parameters.currencyAddress a = eth (starknetContracts cfg)).
  { unfold a. simpl. rewrite (or_falsy _ _ Hfalsy), Hcfg. reflexivity. }
  assert (Ef : ApproveInfo.currencyAddress (FulfillListingCoreParameters.approveInfo f)
               = eth (starknetContracts cfg)).
  { unfold f. simpl. rewrite (or_falsy _ _ Hfalsy), Hcfg. reflexivity. }
  destruct run_calls as (evs & Htrace & Hcalls).
  exists evs. split; [exact Htrace |].
  assert (Hin : In (CallApproveERC20 a) (calls evs)).
  { rewrite Hcalls. destruct (fst (approveERC20 a (world st))); simpl; auto. }
  split; [| split; [| split]].
  - exists a. apply filter_In in Hin. apply Hin.
  - intros a0 H0. apply In_calls in H0; [| reflexivity]. rewrite Hcalls in H0.
    destruct (fst (approveERC20 a (world st))); simpl in H0; split_In H0;
      try discriminate H0; injection H0 as Heq; rewrite <- Heq; exact Ea.
  - intros c g H0. apply In_calls in H0; [| reflexivity]. rewrite Hcalls in H0.
    destruct (fst (approveERC20 a (world st))); simpl in H0; split_In H0;
      try discriminate H0; injection H0 as _ Heq; rewrite <- Heq; exact Ef.
  - intros Hok. fold a in Hok. rewrite Hok in Hcalls.
    exists config, f.
    assert (H0 : In (CallFulfillListingCore config f) (calls evs))
      by (rewrite Hcalls; simpl; auto).
    apply filter_In in H0. apply H0.
Qed.

(** C5, as the code has it. With a burner wallet, when the approval
    returns, the run makes exactly two external calls, the approval and
    then the fulfilment, with the same currency address; the approval is
    given [Number(startAmount)] and the fulfilment [startAmount] itself,
    which are the same value whenever [startAmount] is a number. *)
Theorem fulfillListing_same_currency_amount_converted (w1 : World) :
  approveERC20 (approveERC20_arguments config parameters) (world st) = (Fulfilled tt, w1) ->
  exists evs a0 f0,
    trace (snd (fulfillListing (Some acct) config parameters st)) = trace st ++ evs /\
    calls evs = [CallApproveERC20 a0; CallFulfillListingCore config f0] /\
    ApproveInfo.currencyAddress (FulfillListingCoreParameters.approveInfo f0)
      = ApproveERC20Parameters.currencyAddress a0 /\
    ApproveERC20Parameters.startAmount a0
      = JS.Number StringToNumber (fulfillListingParameters.startAmount parameters) /\
    ApproveInfo.amount (FulfillListingCoreParameters.approveInfo f0)
      = fulfillListingParameters.startAmount parameters /\
    (JS.is_number (fulfillListingParameters.startAmount parameters) = true ->
     ApproveInfo.amount (FulfillListingCoreParameters.approveInfo f0)
       = ApproveERC20Parameters.startAmount a0).
Proof.
  intros Ha. destruct run_calls as (evs & Htrace & Hcalls).
  fold a in Ha. rewrite Ha in Hcalls. simpl in Hcalls.
  exists evs, a, f. repeat split; try assumption.
  intros Hnum. unfold a, f. simpl. rewrite (Number_of_number _ Hnum). reflexivity.
Qed.

(** C6. Without a burner wallet the promise is rejected with "No burner
    wallet." at once: the state is untouched, so no event was recorded,
    no external call was made and the outside world is as before. *)
Theorem fulfillListing_no_wallet :
  fst (fulfillListing None config parameters st)
    = Rejected (JS.new_Error "No burner wallet.") /\
  trace (snd (fulfillListing None config parameters st)) = trace st /\
  world (snd (fulfillListing None config parameters st)) = world st.
Proof.
  repeat split.
Qed.

(** C9. Without a burner wallet neither cell is written: status and
    stepStatus keep their values and no write is recorded; from the
    first render both stay "idle". *)
Theorem fulfillListing_no_wallet_keeps_status (w : World) :
  status (snd (fulfillListing None config parameters st)) = status st /\
  stepStatus (snd (fulfillListing None config parameters st)) = stepStatus st /\
  writes (trace (snd (fulfillListing None config parameters st))) = writes (trace st) /\
  status (snd (fulfillListing None config parameters (first_render w))) = Status.idle /\
  stepStatus (snd (fulfillListing None config parameters (first_render w))) = StepStatus.idle.
Proof.
  repeat split.
Qed.

(** C7. With a burner wallet the effects of a run come in this order:
    status "loading", stepStatus "approving", the approval call; when
    the approval returns, stepStatus "selling" and the fulfilment call;
    then status "success" and stepStatus "sold" when the fulfilment
    returns, or, as soon as either call throws, the log of the error,
    status "error" and stepStatus "error".  A call that never settles
    ends the sequence where it stands.  No other value is written: in
    particular "idle" never is. *)
Theorem fulfillListing_write_order :
  exists evs,
    trace (snd (fulfillListing (Some acct) config parameters st)) = trace st ++ evs /\
    evs =
      [SetStatus Status.loading; SetStepStatus StepStatus.approving;
       CallApproveERC20 (approveERC20_arguments config parameters)] ++
      match approveERC20 (approveERC20_arguments config parameters) (world st) with
      | (Fulfilled _, w1) =>
          [SetStepStatus StepStatus.selling;
           CallFulfillListingCore config (fulfillListingCore_arguments config parameters)] ++
          match
            fulfillListingCore config (fulfillListingCore_arguments config parameters) w1
          with
          | (Fulfilled _, _) =>
              [SetStatus Status.success; SetStepStatus StepStatus.sold]
          | (Rejected e, _) =>
              [ConsoleError e; SetStatus Status.error; SetStepStatus StepStatus.error]
          | (Pending, _) => []
          end
      | (Rejected e, _) =>
          [ConsoleError e; SetStatus Status.error; SetStepStatus StepStatus.error]
      | (Pending, _) => []
      end /\
    Forall
      (fun e =>
         In e [SetStatus Status.loading; SetStepStatus StepStatus.approving;
               SetStepStatus StepStatus.selling;
               SetStatus Status.success; SetStepStatus StepStatus.sold;
               SetStatus Status.error; SetStepStatus StepStatus.error])
      (writes evs).
Proof.
  fold a f.
  destruct run_cases as
    [(w1 & w2 & Ha & Hf) | [(e & w1 & Ha) | [(w1 & Ha) |
      [(e & w1 & w2 & Ha & Hf) | (w1 & w2 & Ha & Hf)]]]].
  - rewrite (run_sold w1 w2 Ha Hf), Ha, Hf. eexists.
    split; [reflexivity |]. split; [reflexivity |].
    unfold writes, selling, approving; simpl. only_listed_writes.
  - rewrite (run_approval_rejected e w1 Ha), Ha. eexists.
    split; [reflexivity |]. split; [reflexivity |].
    unfold writes, selling, approving; simpl. only_listed_writes.
  - rewrite (run_approval_pending w1 Ha), Ha. eexists.
    split; [reflexivity |]. split; [rewrite app_nil_r; reflexivity |].
    unfold writes, selling, approving; simpl. only_listed_writes.
  - rewrite (run_fulfilment_rejected e w1 w2 Ha Hf), Ha, Hf. eexists.
    split; [reflexivity |]. split; [reflexivity |].
    unfold writes, selling, approving; simpl. only_listed_writes.
  - rewrite (run_fulfilment_pending w1 w2 Ha Hf), Ha, Hf. eexists.
    split; [reflexivity |]. split; [reflexivity |].
    unfold writes, selling, approving; simpl. only_listed_writes.
Qed.

(** C10. With a burner wallet, once the run has completed, (status,
    stepStatus) is ("success", "sold") or ("error", "error"); so
    stepStatus is "sold" exactly when status is "success", and "error"
    exactly when status is "error". *)
Theorem fulfillListing_final_pair :
  fst (fulfillListing (Some acct) config parameters st) <> Pending ->
  ((status (snd (fulfillListing (Some acct) config parameters st)) = Status.success /\
    stepStatus (snd (fulfillListing (Some acct) config parameters st)) = StepStatus.sold) \/
   (status (snd (fulfillListing (Some acct) config parameters st)) = Status.error /\
    stepStatus (snd (fulfillListing (Some acct) config parameters st)) = StepStatus.error)) /\
  (stepStatus (snd (fulfillListing (Some acct) config parameters st)) = StepStatus.sold <->
   status (snd (fulfillListing (Some acct) config parameters st)) = Status.success) /\
  (stepStatus (snd (fulfillListing (Some acct) config parameters st)) = StepStatus.error <->
   status (snd (fulfillListing (Some acct) config parameters st)) = Status.error).
Proof.
  destruct run_cases as
    [(w1 & w2 & Ha & Hf) | [(e & w1 & Ha) | [(w1 & Ha) |
      [(e & w1 & w2 & Ha & Hf) | (w1 & w2 & Ha & Hf)]]]].
  - rewrite (run_sold w1 w2 Ha Hf). simpl. intros _.
    split; [left; auto |]. split; split; intros H; reflexivity || discriminate H.
  - rewrite (run_approval_rejected e w1 Ha). simpl. intros _.
    split; [right; auto |]. split; split; intros H; reflexivity || discriminate H.
  - rewrite (run_approval_pending w1 Ha). simpl. intros H. contradiction H. reflexivity.
  - rewrite (run_fulfilment_rejected e w1 w2 Ha Hf). simpl. intros _.
    split; [right; auto |]. split; split; intros H; reflexivity || discriminate H.
  - rewrite (run_fulfilment_pending w1 w2 Ha Hf). simpl. intros H. contradiction H.
    reflexivity.
Qed.

End HookFacts.

(** * Properties of [declareDeploy] *)

Section DeployerFacts.

Context `{T : Toolchain}.

(** C8. When loading the artifacts, compiling the constructor call data
    and the account's [declareAndDeploy] all succeed, [declareDeploy]
    sends one request, a declare-and-deploy of the loaded sierra and
    casm with the compiled call data and the salt 0x7777, and returns
    the contract object built from the loaded ABI, the
    [deploy.contract_address] of the response and the provider. *)
Theorem declareDeploy_returns_contract
    (artifacts_path : string) (account : AccountInterface) (provider : Provider)
    (constructorData : ConstructorData) (st : ScriptState)
    (artifacts : Artifacts) (contractConstructor : Calldata)
    (deployR : DeclareDeployUDCResponse) (o : Outside) :
  load_artifacts artifacts_path "arkchain_orderbook" (outside st) = Normal artifacts ->
  compile (new_CallData (abi (sierra artifacts))) "constructor"
    [("admin", admin constructorData)] = Normal contractConstructor ->
  declareAndDeploy account
    {| DeclareAndDeployContractPayload.contract := sierra artifacts;
       DeclareAndDeployContractPayload.casm := casm artifacts;
       DeclareAndDeployContractPayload.constructorCalldata := contractConstructor;
       DeclareAndDeployContractPayload.salt := 30583 |}
    (outside st) = (Fulfilled deployR, o) ->
  declareDeploy artifacts_path account provider constructorData st =
    (Fulfilled
       {| Contract_abi := abi (sierra artifacts);
          Contract_address := contract_address (deploy deployR);
          Contract_providerOrAccount := provider |},
     {| outside := o;
        requests :=
          requests st ++
          [DeclareAndDeploy account
             {| DeclareAndDeployContractPayload.contract := sierra artifacts;
                DeclareAndDeployContractPayload.casm := casm artifacts;
                DeclareAndDeployContractPayload.constructorCalldata := contractConstructor;
                DeclareAndDeployContractPayload.salt := 0x7777 |}] |}).
Proof.
  intros Hload Hcompile Hdeploy.
  unfold declareDeploy, bind, common_load_artifacts, sync, await_declareAndDeploy, ret.
  rewrite Hload, Hcompile.
  unfold declareAndDeploy_payload.
  change 0x7777 with 30583. rewrite Hdeploy. reflexivity.
Qed.

End DeployerFacts.

(** * The statements on the concrete world *)

(** C1 on the demo listing: approval and fulfilment both return. *)
Lemma fulfillListing_success_witness :
  fst (@fulfillListing Demo.collaborators (Some Demo.wallet) (Some Demo.config)
         Demo.listing Demo.start) = Fulfilled tt /\
  status (snd (@fulfillListing Demo.collaborators (Some Demo.wallet) (Some Demo.config)
                 Demo.listing Demo.start)) = Status.success /\
  stepStatus (snd (@fulfillListing Demo.collaborators (Some Demo.wallet) (Some Demo.config)
                     Demo.listing Demo.start)) = StepStatus.sold.
Proof.
  eapply (@fulfillListing_success Demo.collaborators Demo.wallet (Some Demo.config)
            Demo.listing Demo.start); reflexivity.
Defined.

(** C2 without a configuration: no currency, so the approval throws. *)
Lemma fulfillListing_approval_failure_witness :
  status (snd (@fulfillListing Demo.collaborators (Some Demo.wallet) None
                 Demo.listing Demo.start)) = Status.error /\
  stepStatus (snd (@fulfillListing Demo.collaborators (Some Demo.wallet) None
                     Demo.listing Demo.start)) = StepStatus.error /\
  forall c g,
    ~ In (CallFulfillListingCore c g)
         (trace (snd (@fulfillListing Demo.collaborators (Some Demo.wallet) None
                        Demo.listing Demo.start))).
Proof.
  destruct (@fulfillListing_approval_failure Demo.collaborators Demo.wallet None
              Demo.listing Demo.start (JS.new_Error "Invalid currency.")
              Demo.empty_ledger eq_refl)
    as (_ & Hstatus & Hstep & evs & Htrace & _ & Hnever & _).
  split; [exact Hstatus |]. split; [exact Hstep |].
  intros c g. rewrite Htrace. exact (Hnever c g).
Defined.

(** C3 on the listing without an order hash: the approval is recorded,
    the fulfilment throws, and the allowance stays on the ledger. *)
Lemma fulfillListing_fulfilment_failure_witness :
  status (snd (@fulfillListing Demo.collaborators (Some Demo.wallet) (Some Demo.config)
                 Demo.unknown_listing Demo.start)) = Status.error /\
  stepStatus (snd (@fulfillListing Demo.collaborators (Some Demo.wallet) (Some Demo.config)
                     Demo.unknown_listing Demo.start)) = StepStatus.error /\
  List.length (Demo.allowances
            (world (snd (@fulfillListing Demo.collaborators (Some Demo.wallet)
                           (Some Demo.config) Demo.unknown_listing Demo.start)))) = 1%nat.
Proof.
  destruct (@fulfillListing_fulfilment_failure Demo.collaborators Demo.wallet
              (Some Demo.config) Demo.unknown_listing Demo.start
              (JS.new_Error "Order not found.") _ _ eq_refl eq_refl)
    as (_ & Hstatus & Hstep & Hworld & _).
  split; [exact Hstatus |]. split; [exact Hstep |].
  rewrite Hworld. reflexivity.
Defined.

(** C4 on the demo listing, whose currency address is omitted. *)
Lemma fulfillListing_default_currency_witness :
  exists evs,
    trace (snd (@fulfillListing Demo.collaborators (Some Demo.wallet) (Some Demo.config)
                  Demo.listing Demo.start)) = evs /\
    (forall a0,
        In (CallApproveERC20 a0) evs ->
        ApproveERC20Parameters.currencyAddress a0 = eth (starknetContracts Demo.config)) /\
    (forall c g,
        In (CallFulfillListingCore c g) evs ->
        ApproveInfo.currencyAddress (FulfillListingCoreParameters.approveInfo g)
          = eth (starknetContracts Demo.config)) /\
    (exists c g, In (CallFulfillListingCore c g) evs).
Proof.
  destruct (@fulfillListing_default_currency Demo.collaborators Demo.wallet
              (Some Demo.config) Demo.listing Demo.start Demo.config eq_refl eq_refl)
    as (evs & Htrace & _ & Happrove & Hfulfil & Hcalled).
  exists evs. split; [exact Htrace |]. split; [exact Happrove |].
  split; [exact Hfulfil |]. apply Hcalled. reflexivity.
Defined.

(** C5, as the claim has it, on the listing whose amount is the bigint
    2^53 + 1: the approval returns, it was given the number 2^53, and
    the fulfilment is given the bigint itself, so the two calls of the
    run do not carry the same amount. *)
Lemma fulfillListing_same_amount_counterexample :
  fst (Demo.approveERC20
         (@approveERC20_arguments Demo.collaborators (Some Demo.config) Demo.bigint_listing)
         Demo.empty_ledger) = Fulfilled tt /\
  ~ (forall a0 c f0,
        In (CallApproveERC20 a0)
           (trace (snd (@fulfillListing Demo.collaborators (Some Demo.wallet)
                          (Some Demo.config) Demo.bigint_listing Demo.start))) ->
        In (CallFulfillListingCore c f0)
           (trace (snd (@fulfillListing Demo.collaborators (Some Demo.wallet)
                          (Some Demo.config) Demo.bigint_listing Demo.start))) ->
        ApproveInfo.currencyAddress (FulfillListingCoreParameters.approveInfo f0)
          = ApproveERC20Parameters.currencyAddress a0 /\
        ApproveInfo.amount (FulfillListingCoreParameters.approveInfo f0)
          = ApproveERC20Parameters.startAmount a0).
Proof.
  split; [reflexivity |].
  intros H.
  destruct (H (@approveERC20_arguments Demo.collaborators (Some Demo.config)
                 Demo.bigint_listing)
              (Some Demo.config)
              (fulfillListingCore_arguments (Some Demo.config) Demo.bigint_listing)) as [_ Hamount].
  - vm_compute. auto 10.
  - vm_compute. auto 10.
  - vm_compute in Hamount. discriminate Hamount.
Qed.

(** The values the two calls carry in that run. *)
Example fulfillListing_bigint_amounts :
  calls (trace (snd (@fulfillListing Demo.collaborators (Some Demo.wallet)
                       (Some Demo.config) Demo.bigint_listing Demo.start))) =
    [CallApproveERC20
       {| ApproveERC20Parameters.starknetAccount := Demo.buyer;
          ApproveERC20Parameters.startAmount := JS.Num (S754_finite false 4503599627370496 1);
          ApproveERC20Parameters.currencyAddress := JS.Str "0x57a8c" |};
     CallFulfillListingCore (Some Demo.config)
       {| FulfillListingCoreParameters.starknetAccount := Demo.buyer;
          FulfillListingCoreParameters.fulfillListingInfo :=
            {| FulfillListingInfo.orderHash := JS.BigInt 0x1234;
               FulfillListingInfo.tokenAddress := JS.Str "0x7e57";
               FulfillListingInfo.tokenId := JS.BigInt 42;
               FulfillListingInfo.brokerId := JS.BigInt 1 |};
          FulfillListingCoreParameters.approveInfo :=
            {| ApproveInfo.currencyAddress := JS.Str "0x57a8c";
               ApproveInfo.amount := JS.BigInt 9007199254740993 |} |}].
Proof.
  vm_compute. reflexivity.
Qed.

(** The same happens with the string "100": the approval is given the
    number 100 and the fulfilment the string. *)
Example fulfillListing_string_amounts :
  map (fun e =>
         match e with
         | CallApproveERC20 a0 => Some (ApproveERC20Parameters.startAmount a0)
         | CallFulfillListingCore _ f0 =>
             Some (ApproveInfo.amount (FulfillListingCoreParameters.approveInfo f0))
         | _ => None
         end)
      (calls (trace (snd (@fulfillListing Demo.collaborators (Some Demo.wallet)
                            (Some Demo.config) Demo.string_listing Demo.start)))) =
    [Some (JS.Num (JS.of_Z 100)); Some (JS.Str "100")].
Proof.
  vm_compute. reflexivity.
Qed.

(** C5 as amended, on the demo listing, whose amount is a number: both
    calls carry the same currency address and the same amount. *)
Lemma fulfillListing_same_currency_amount_converted_witness :
  exists a0 f0,
    calls (trace (snd (@fulfillListing Demo.collaborators (Some Demo.wallet)
                         (Some Demo.config) Demo.listing Demo.start))) =
      [CallApproveERC20 a0; CallFulfillListingCore (Some Demo.config) f0] /\
    ApproveInfo.currencyAddress (FulfillListingCoreParameters.approveInfo f0)
      = ApproveERC20Parameters.currencyAddress a0 /\
    ApproveInfo.amount (FulfillListingCoreParameters.approveInfo f0)
      = ApproveERC20Parameters.startAmount a0.
Proof.
  destruct (@fulfillListing_same_currency_amount_converted Demo.collaborators Demo.wallet
              (Some Demo.config) Demo.listing Demo.start _ eq_refl)
    as (evs & a0 & f0 & Htrace & Hcalls & Hcurrency & _ & _ & Hsame).
  exists a0, f0. rewrite Htrace. split; [exact Hcalls |].
  split; [exact Hcurrency |]. apply Hsame. reflexivity.
Defined.

(** C10 on the demo listing: the run completes. *)
Lemma fulfillListing_final_pair_witness :
  stepStatus (snd (@fulfillListing Demo.collaborators (Some Demo.wallet) (Some Demo.config)
                     Demo.listing Demo.start)) = StepStatus.sold <->
  status (snd (@fulfillListing Demo.collaborators (Some Demo.wallet) (Some Demo.config)
                 Demo.listing Demo.start)) = Status.success.
Proof.
  apply (@fulfillListing_final_pair Demo.collaborators Demo.wallet (Some Demo.config)
           Demo.listing Demo.start).
  simpl. discriminate.
Defined.

(** C8 on the demo toolchain. *)
Lemma declareDeploy_returns_contract_witness :
  exists st',
    @declareDeploy Demo.toolchain "./artifacts" Demo.wallet Demo.provider
      Demo.constructorData Demo.script_start =
      (Fulfilled
         {| Contract_abi := "[constructor(admin)]";
            Contract_address := "0xdeadbeef";
            Contract_providerOrAccount := Demo.provider |},
       st') /\
    map (fun r => match r with
                  | DeclareAndDeploy _ payload =>
                      DeclareAndDeployContractPayload.salt payload
                  end) (requests st') = [30583].
Proof.
  eexists. split.
  - apply (@declareDeploy_returns_contract Demo.toolchain "./artifacts" Demo.wallet
             Demo.provider Demo.constructorData Demo.script_start
             Demo.orderbook_artifacts ["0xad"]
             {| declare := "0xc1a55";
                deploy := {| contract_address := "0xdeadbeef";
                             transaction_hash := "0xabc" |} |}
             1%nat eq_refl eq_refl eq_refl).
  - reflexivity.
Defined.

(** A run whose approval never settles stays at "loading" /
    "approving" and its promise stays pending. *)
Example fulfillListing_pending_approval :
  let r := @fulfillListing Demo.collaborators (Some Demo.wallet) (Some Demo.config)
             Demo.unsigned_listing Demo.start in
  fst r = Pending /\
  status (snd r) = Status.loading /\
  stepStatus (snd r) = StepStatus.approving /\
  writes (trace (snd r)) = [SetStatus Status.loading; SetStepStatus StepStatus.approving].
Proof.
  vm_compute. repeat split.
Qed.

(** Without a wallet, from the first render. *)
Example fulfillListing_no_wallet_first_render :
  @fulfillListing Demo.collaborators None (Some Demo.config) Demo.listing Demo.start =
    (Rejected (JS.new_Error "No burner wallet."), Demo.start).
Proof.
  reflexivity.
Qed.

(** A deployment whose artifacts are missing sends nothing. *)
Example declareDeploy_missing_artifacts :
  @declareDeploy Demo.toolchain "./nowhere" Demo.wallet Demo.provider
    Demo.constructorData Demo.script_start =
    (Rejected (JS.new_Error "ENOENT"), Demo.script_start).
Proof.
  reflexivity.
Qed.

(** * Further properties of [fulfillListing] *)

(** Go through the five ways a run with a wallet can go, rewriting the
    run and the two calls with their outcome. *)
Ltac by_run_cases acct config parameters st :=
  let w1 := fresh "w1" in
  let w2 := fresh "w2" in
  let e := fresh "e" in
  let Ha := fresh "Ha" in
  let Hf := fresh "Hf" in
  destruct (run_cases config parameters st) as
    [(w1 & w2 & Ha & Hf) | [(e & w1 & Ha) | [(w1 & Ha) |
      [(e & w1 & w2 & Ha & Hf) | (w1 & w2 & Ha & Hf)]]]];
  [ rewrite ?(run_sold acct config parameters st w1 w2 Ha Hf), ?Ha; simpl;
    rewrite ?Hf; simpl
  | rewrite ?(run_approval_rejected acct config parameters st e w1 Ha), ?Ha; simpl
  | rewrite ?(run_approval_pending acct config parameters st w1 Ha), ?Ha; simpl
  | rewrite ?(run_fulfilment_rejected acct config parameters st e w1 w2 Ha Hf), ?Ha; simpl;
    rewrite ?Hf; simpl
  | rewrite ?(run_fulfilment_pending acct config parameters st w1 w2 Ha Hf), ?Ha; simpl;
    rewrite ?Hf; simpl ].

Section HookMore.

Context `{C : Collaborators}.

Variables (acct : AccountInterface) (config : option Config).
Variable parameters : fulfillListingParameters.t.
Variable st : HookState.

(** The external calls a run can make are the two of the source, with
    the arguments built there. *)
Lemma run_call_events :
  exists evs,
    trace (snd (fulfillListing (Some acct) config parameters st)) = trace st ++ evs /\
    forall e,
      is_call e = true -> In e evs ->
      e = CallApproveERC20 (approveERC20_arguments config parameters) \/
      e = CallFulfillListingCore config (fulfillListingCore_arguments config parameters).
Proof.
  destruct (run_calls acct config parameters st) as (evs & Htrace & Hcalls).
  exists evs. split; [exact Htrace |].
  intros e He Hin. apply In_calls in Hin; [| exact He]. rewrite Hcalls in Hin.
  destruct (fst (approveERC20 (approveERC20_arguments config parameters) (world st)));
    simpl in Hin; split_In Hin; auto.
Qed.

(** [a || b] is [a] when [a] is truthy. *)
Lemma or_truthy (x y : JS.value) : JS.ToBoolean x = true -> JS.or x y = x.
Proof.
  intros H. unfold JS.or. rewrite H. reflexivity.
Qed.

(** X1. With a burner wallet the promise of [fulfillListing] is never
    rejected: whatever the two calls throw is caught, so the promise is
    fulfilled or, when a call never settles, pending. *)
Theorem fulfillListing_swallows_errors :
  fst (fulfillListing (Some acct) config parameters st) = Fulfilled tt \/
  fst (fulfillListing (Some acct) config parameters st) = Pending.
Proof.
  by_run_cases acct config parameters st; auto.
Qed.

(** X2. After a run with a burner wallet, stepStatus tells how the two
    calls went: "approving" when the approval never settled, "selling"
    when the approval returned and the fulfilment never settled, "sold"
    when both returned, "error" when either threw; and status is
    "loading" exactly when the promise of the run is still pending. *)
Theorem fulfillListing_step_tells_outcome :
  (stepStatus (snd (fulfillListing (Some acct) config parameters st)) = StepStatus.approving <->
   fst (approveERC20 (approveERC20_arguments config parameters) (world st)) = Pending) /\
  (stepStatus (snd (fulfillListing (Some acct) config parameters st)) = StepStatus.selling <->
   fst (approveERC20 (approveERC20_arguments config parameters) (world st)) = Fulfilled tt /\
   fst (fulfillListingCore config (fulfillListingCore_arguments config parameters)
          (snd (approveERC20 (approveERC20_arguments config parameters) (world st))))
     = Pending) /\
  (stepStatus (snd (fulfillListing (Some acct) config parameters st)) = StepStatus.sold <->
   fst (approveERC20 (approveERC20_arguments config parameters) (world st)) = Fulfilled tt /\
   fst (fulfillListingCore config (fulfillListingCore_arguments config parameters)
          (snd (approveERC20 (approveERC20_arguments config parameters) (world st))))
     = Fulfilled tt) /\
  (stepStatus (snd (fulfillListing (Some acct) config parameters st)) = StepStatus.error <->
   (exists e,
       fst (approveERC20 (approveERC20_arguments config parameters) (world st))
         = Rejected e) \/
   (fst (approveERC20 (approveERC20_arguments config parameters) (world st)) = Fulfilled tt /\
    exists e,
      fst (fulfillListingCore config (fulfillListingCore_arguments config parameters)
             (snd (approveERC20 (approveERC20_arguments config parameters) (world st))))
        = Rejected e)) /\
  (status (snd (fulfillListing (Some acct) config parameters st)) = Status.loading <->
   fst (fulfillListing (Some acct) config parameters st) = Pending).
Proof.
  by_run_cases acct config parameters st;
    repeat split; intros;
    repeat match goal with
           | H : _ /\ _ |- _ => destruct H
           | H : _ \/ _ |- _ => destruct H
           | H : exists _, _ |- _ => destruct H
           end;
    try discriminate; eauto.
Qed.

(** X3. The burner wallet only gates the run: which wallet is present
    makes no difference, and both external calls are made with
    [parameters.starknetAccount], never with the wallet itself. *)
Theorem fulfillListing_calls_use_parameter_account (other : AccountInterface) :
  fulfillListing (Some acct) config parameters st
    = fulfillListing (Some other) config parameters st /\
  exists evs,
    trace (snd (fulfillListing (Some acct) config parameters st)) = trace st ++ evs /\
    (forall a0,
        In (CallApproveERC20 a0) evs ->
        ApproveERC20Parameters.starknetAccount a0
          = fulfillListingParameters.starknetAccount parameters) /\
    (forall c g,
        In (CallFulfillListingCore c g) evs ->
        FulfillListingCoreParameters.starknetAccount g
          = fulfillListingParameters.starknetAccount parameters).
Proof.
  split; [reflexivity |].
  destruct run_call_events as (evs & Htrace & Hcall).
  exists evs. split; [exact Htrace |]. split.
  - intros a0 Hin. destruct (Hcall (CallApproveERC20 a0) eq_refl Hin) as [H | H]; [| discriminate H].
    injection H as ->. reflexivity.
  - intros c g Hin. destruct (Hcall (CallFulfillListingCore c g) eq_refl Hin) as [H | H]; [discriminate H |].
    injection H as -> ->. reflexivity.
Qed.

(** X4. Whenever the run calls [fulfillListingCore], it passes the
    configuration as the hook got it (absent when absent) and the
    listing's order hash, token address, token id and broker id as they
    are in the parameters. *)
Theorem fulfillListing_passes_listing_unchanged :
  exists evs,
    trace (snd (fulfillListing (Some acct) config parameters st)) = trace st ++ evs /\
    forall c g,
      In (CallFulfillListingCore c g) evs ->
      c = config /\
      FulfillListingCoreParameters.fulfillListingInfo g =
        {| FulfillListingInfo.orderHash := fulfillListingParameters.orderHash parameters;
           FulfillListingInfo.tokenAddress := fulfillListingParameters.tokenAddress parameters;
           FulfillListingInfo.tokenId := fulfillListingParameters.tokenId parameters;
           FulfillListingInfo.brokerId := fulfillListingParameters.brokerId parameters |}.
Proof.
  destruct run_call_events as (evs & Htrace & Hcall).
  exists evs. split; [exact Htrace |].
  intros c g Hin. destruct (Hcall (CallFulfillListingCore c g) eq_refl Hin) as [H | H]; [discriminate H |].
  injection H as -> ->. split; reflexivity.
Qed.

(** X5. A truthy [currencyAddress] is passed as it is to both calls,
    whatever the configuration says. *)
Theorem fulfillListing_given_currency :
  JS.ToBoolean (fulfillListingParameters.currencyAddress parameters) = true ->
  exists evs,
    trace (snd (fulfillListing (Some acct) config parameters st)) = trace st ++ evs /\
    (exists a0, In (CallApproveERC20 a0) evs) /\
    (forall a0,
        In (CallApproveERC20 a0) evs ->
        ApproveERC20Parameters.currencyAddress a0
          = fulfillListingParameters.currencyAddress parameters) /\
    (forall c g,
        In (CallFulfillListingCore c g) evs ->
        ApproveInfo.currencyAddress (FulfillListingCoreParameters.approveInfo g)
          = fulfillListingParameters.currencyAddress parameters).
Proof.
  intros Htruthy.
  destruct (run_calls acct config parameters st) as (evs & Htrace & Hcalls).
  exists evs. split; [exact Htrace |]. split; [| split].
  - exists (approveERC20_arguments config parameters).
    assert (Hin : In (CallApproveERC20 (approveERC20_arguments config parameters))
                     (calls evs)).
    { rewrite Hcalls.
      destruct (fst (approveERC20 (approveERC20_arguments config parameters) (world st)));
        simpl; auto. }
    apply filter_In in Hin. apply Hin.
  - intros a0 Hin. apply In_calls in Hin; [| reflexivity]. rewrite Hcalls in Hin.
    destruct (fst (approveERC20 (approveERC20_arguments config parameters) (world st)));
      simpl in Hin; split_In Hin; try discriminate Hin;
      injection Hin as <-; simpl; apply or_truthy; exact Htruthy.
  - intros c g Hin. apply In_calls in Hin; [| reflexivity]. rewrite Hcalls in Hin.
    destruct (fst (approveERC20 (approveERC20_arguments config parameters) (world st)));
      simpl in Hin; split_In Hin; try discriminate Hin;
      injection Hin as _ <-; simpl; apply or_truthy; exact Htruthy.
Qed.

(** X6. With neither a currency address nor a configuration, the
    approval is still attempted, and every call of the run is given
    [undefined] as currency address. *)
Theorem fulfillListing_no_currency_no_config :
  config = None ->
  JS.ToBoolean (fulfillListingParameters.currencyAddress parameters) = false ->
  exists evs,
    trace (snd (fulfillListing (Some acct) config parameters st)) = trace st ++ evs /\
    (exists a0, In (CallApproveERC20 a0) evs) /\
    (forall a0,
        In (CallApproveERC20 a0) evs ->
        ApproveERC20Parameters.currencyAddress a0 = JS.Undefined) /\
    (forall c g,
        In (CallFulfillListingCore c g) evs ->
        c = None /\
        ApproveInfo.currencyAddress (FulfillListingCoreParameters.approveInfo g)
          = JS.Undefined).
Proof.
  intros Hnone Hfalsy.
  destruct (run_calls acct config parameters st) as (evs & Htrace & Hcalls).
  exists evs. split; [exact Htrace |]. split; [| split].
  - exists (approveERC20_arguments config parameters).
    assert (Hin : In (CallApproveERC20 (approveERC20_arguments config parameters))
                     (calls evs)).
    { rewrite Hcalls.
      destruct (fst (approveERC20 (approveERC20_arguments config parameters) (world st)));
        simpl; auto. }
    apply filter_In in Hin. apply Hin.
  - intros a0 Hin. apply In_calls in Hin; [| reflexivity]. rewrite Hcalls in Hin.
    destruct (fst (approveERC20 (approveERC20_arguments config parameters) (world st)));
      simpl in Hin; split_In Hin; try discriminate Hin;
      injection Hin as <-; simpl; rewrite (or_falsy _ _ Hfalsy), Hnone; reflexivity.
  - intros c g Hin. apply In_calls in Hin; [| reflexivity]. rewrite Hcalls in Hin.
    destruct (fst (approveERC20 (approveERC20_arguments config parameters) (world st)));
      simpl in Hin; split_In Hin; try discriminate Hin;
      injection Hin as <- <-; simpl; rewrite (or_falsy _ _ Hfalsy), Hnone; split; reflexivity.
Qed.

(** X7. A run with a burner wallet does not depend on what the cells
    held or on what happened before: from two states with the same
    outside world, it settles the same way, leaves the same status,
    stepStatus and world and appends the same events.  So an invocation
    after a failed one starts afresh. *)
Theorem fulfillListing_starts_afresh (st2 : HookState) :
  world st2 = world st ->
  fst (fulfillListing (Some acct) config parameters st2)
    = fst (fulfillListing (Some acct) config parameters st) /\
  status (snd (fulfillListing (Some acct) config parameters st2))
    = status (snd (fulfillListing (Some acct) config parameters st)) /\
  stepStatus (snd (fulfillListing (Some acct) config parameters st2))
    = stepStatus (snd (fulfillListing (Some acct) config parameters st)) /\
  world (snd (fulfillListing (Some acct) config parameters st2))
    = world (snd (fulfillListing (Some acct) config parameters st)) /\
  exists evs,
    trace (snd (fulfillListing (Some acct) config parameters st)) = trace st ++ evs /\
    trace (snd (fulfillListing (Some acct) config parameters st2)) = trace st2 ++ evs.
Proof.
  intros Hworld.
  destruct (run_cases config parameters st) as
    [(w1 & w2 & Ha & Hf) | [(e & w1 & Ha) | [(w1 & Ha) |
      [(e & w1 & w2 & Ha & Hf) | (w1 & w2 & Ha & Hf)]]]];
    pose proof Ha as Ha2; rewrite <- Hworld in Ha2.
  - rewrite (run_sold acct config parameters st w1 w2 Ha Hf),
      (run_sold acct config parameters st2 w1 w2 Ha2 Hf).
    simpl. repeat split. eexists. split; reflexivity.
  - rewrite (run_approval_rejected acct config parameters st e w1 Ha),
      (run_approval_rejected acct config parameters st2 e w1 Ha2).
    simpl. repeat split. eexists. split; reflexivity.
  - rewrite (run_approval_pending acct config parameters st w1 Ha),
      (run_approval_pending acct config parameters st2 w1 Ha2).
    simpl. repeat split. eexists. split; reflexivity.
  - rewrite (run_fulfilment_rejected acct config parameters st e w1 w2 Ha Hf),
      (run_fulfilment_rejected acct config parameters st2 e w1 w2 Ha2 Hf).
    simpl. repeat split. eexists. split; reflexivity.
  - rewrite (run_fulfilment_pending acct config parameters st w1 w2 Ha Hf),
      (run_fulfilment_pending acct config parameters st2 w1 w2 Ha2 Hf).
    simpl. repeat split. eexists. split; reflexivity.
Qed.

(** X8. A run with a burner wallet logs to the console exactly the
    error thrown by the call that failed, once, and logs nothing when
    no call throws. *)
Theorem fulfillListing_logs_the_thrown_error :
  exists evs,
    trace (snd (fulfillListing (Some acct) config parameters st)) = trace st ++ evs /\
    logged evs =
      match approveERC20 (approveERC20_arguments config parameters) (world st) with
      | (Fulfilled _, w1) =>
          match
            fulfillListingCore config (fulfillListingCore_arguments config parameters) w1
          with
          | (Rejected e, _) => [e]
          | _ => []
          end
      | (Rejected e, _) => [e]
      | (Pending, _) => []
      end.
Proof.
  by_run_cases acct config parameters st; eexists; split; reflexivity.
Qed.

(** X9. The hook never acts on the outside world itself: after a run
    with a burner wallet the world is the one the last external call
    left, the approval when it did not return, the fulfilment
    otherwise. *)
Theorem fulfillListing_world_is_the_calls :
  world (snd (fulfillListing (Some acct) config parameters st)) =
    match approveERC20 (approveERC20_arguments config parameters) (world st) with
    | (Fulfilled _, w1) =>
        snd (fulfillListingCore config (fulfillListingCore_arguments config parameters) w1)
    | (_, w1) => w1
    end.
Proof.
  by_run_cases acct config parameters st; reflexivity.
Qed.

End HookMore.

Section Invocations.

Context `{C : Collaborators}.

Lemma writes_app (l1 l2 : list Event) : writes (l1 ++ l2) = writes l1 ++ writes l2.
Proof.
  apply filter_app.
Qed.

(** X10. Between invocations that have settled, whatever their wallets,
    configurations and parameters, (status, stepStatus) is ("idle",
    "idle"), ("success", "sold") or ("error", "error"), and it is
    ("idle", "idle") exactly as long as nothing was ever written: once
    an invocation with a wallet has run, the cells never return to
    "idle". *)
Theorem reachable_status_pairs (st : HookState) :
  reachable st ->
  ((status st = Status.idle /\ stepStatus st = StepStatus.idle) \/
   (status st = Status.success /\ stepStatus st = StepStatus.sold) \/
   (status st = Status.error /\ stepStatus st = StepStatus.error)) /\
  (status st = Status.idle <-> writes (trace st) = []).
Proof.
  induction 1 as [w | st arkAccount config parameters Hreach IH Hsettled | st w Hreach IH].
  - simpl. split; [auto |]. split; reflexivity.
  - destruct arkAccount as [acct |].
    + revert Hsettled.
      destruct (run_cases config parameters st) as
        [(w1 & w2 & Ha & Hf) | [(e & w1 & Ha) | [(w1 & Ha) |
          [(e & w1 & w2 & Ha & Hf) | (w1 & w2 & Ha & Hf)]]]].
      * rewrite (run_sold acct config parameters st w1 w2 Ha Hf). simpl. intros _.
        split; [auto |]. rewrite writes_app. simpl.
        split; intros H; [discriminate H |].
        apply app_eq_nil in H. destruct H as [_ H]. discriminate H.
      * rewrite (run_approval_rejected acct config parameters st e w1 Ha). simpl.
        intros _. split; [auto |]. rewrite writes_app. simpl.
        split; intros H; [discriminate H |].
        apply app_eq_nil in H. destruct H as [_ H]. discriminate H.
      * rewrite (run_approval_pending acct config parameters st w1 Ha). simpl.
        intros H. contradiction H. reflexivity.
      * rewrite (run_fulfilment_rejected acct config parameters st e w1 w2 Ha Hf).
        simpl. intros _. split; [auto |]. rewrite writes_app. simpl.
        split; intros H; [discriminate H |].
        apply app_eq_nil in H. destruct H as [_ H]. discriminate H.
      * rewrite (run_fulfilment_pending acct config parameters st w1 w2 Ha Hf). simpl.
        intros H. contradiction H. reflexivity.
    + simpl. exact IH.
  - simpl. exact IH.
Qed.

End Invocations.

(** * Further properties of [declareDeploy] *)

Ltac run_script :=
  unfold declareDeploy, bind, common_load_artifacts, sync, await_declareAndDeploy, ret,
    declareAndDeploy_payload.

Section DeployerMore.

Context `{T : Toolchain}.

Variables (artifacts_path : string) (account : AccountInterface).
Variables (provider : Provider) (constructorData : ConstructorData).
Variable st : ScriptState.

(** X11. When the artifacts cannot be loaded, [declareDeploy] is
    rejected with the error of the loader, sends nothing and leaves the
    outside world alone. *)
Theorem declareDeploy_load_failure (e : JS.Error) :
  load_artifacts artifacts_path "arkchain_orderbook" (outside st) = Abrupt e ->
  declareDeploy artifacts_path account provider constructorData st = (Rejected e, st).
Proof.
  intros Hload. run_script. rewrite Hload. reflexivity.
Qed.

(** X12. When the constructor call data cannot be compiled against the
    loaded ABI, [declareDeploy] is rejected with the error of the
    compiler and nothing is declared or deployed. *)
Theorem declareDeploy_compile_failure (artifacts : Artifacts) (e : JS.Error) :
  load_artifacts artifacts_path "arkchain_orderbook" (outside st) = Normal artifacts ->
  compile (new_CallData (abi (sierra artifacts))) "constructor"
    [("admin", admin constructorData)] = Abrupt e ->
  declareDeploy artifacts_path account provider constructorData st = (Rejected e, st).
Proof.
  intros Hload Hcompile. run_script. rewrite Hload, Hcompile. reflexivity.
Qed.

(** X13. When the account's [declareAndDeploy] throws, [declareDeploy]
    does not catch: it is rejected with that very error, after the one
    request, and no contract object is built. *)
Theorem declareDeploy_deploy_failure (artifacts : Artifacts)
    (contractConstructor : Calldata) (e : JS.Error) (o : Outside) :
  load_artifacts artifacts_path "arkchain_orderbook" (outside st) = Normal artifacts ->
  compile (new_CallData (abi (sierra artifacts))) "constructor"
    [("admin", admin constructorData)] = Normal contractConstructor ->
  declareAndDeploy account
    {| DeclareAndDeployContractPayload.contract := sierra artifacts;
       DeclareAndDeployContractPayload.casm := casm artifacts;
       DeclareAndDeployContractPayload.constructorCalldata := contractConstructor;
       DeclareAndDeployContractPayload.salt := 30583 |}
    (outside st) = (Rejected e, o) ->
  declareDeploy artifacts_path account provider constructorData st =
    (Rejected e,
     {| outside := o;
        requests :=
          requests st ++
          [DeclareAndDeploy account
             {| DeclareAndDeployContractPayload.contract := sierra artifacts;
                DeclareAndDeployContractPayload.casm := casm artifacts;
                DeclareAndDeployContractPayload.constructorCalldata := contractConstructor;
                DeclareAndDeployContractPayload.salt := 30583 |}] |}).
Proof.
  intros Hload Hcompile Hdeploy. run_script. rewrite Hload, Hcompile.
  change 0x7777 with 30583. rewrite Hdeploy. reflexivity.
Qed.

(** X14. Whatever happens, a run of [declareDeploy] sends at most one
    request, through the account it was given and with the salt
    0x7777. *)
Theorem declareDeploy_single_request :
  exists reqs,
    requests (snd (declareDeploy artifacts_path account provider constructorData st))
      = requests st ++ reqs /\
    (List.length reqs <= 1)%nat /\
    Forall
      (fun q =>
         match q with
         | DeclareAndDeploy sender payload =>
             sender = account /\ DeclareAndDeployContractPayload.salt payload = 0x7777
         end)
      reqs.
Proof.
  run_script.
  destruct (load_artifacts artifacts_path "arkchain_orderbook" (outside st))
    as [artifacts | e].
  - destruct (compile (new_CallData (abi (sierra artifacts))) "constructor"
                [("admin", admin constructorData)]) as [contractConstructor | e].
    + destruct (declareAndDeploy account _ (outside st)) as [[deployR | e | ] o];
        simpl; eexists; (split; [reflexivity |]); simpl;
        (split; [lia |]); repeat constructor.
    + exists []. simpl. rewrite app_nil_r. repeat constructor.
  - exists []. simpl. rewrite app_nil_r. repeat constructor.
Qed.


(** X16. The provider takes no part in the deployment: with another
    provider the same request is sent and the outside world ends the
    same, and the promise settles the same way, on a contract object
    with the same ABI and address. *)
Theorem declareDeploy_provider_only_stored (provider2 : Provider) :
  snd (declareDeploy artifacts_path account provider constructorData st)
    = snd (declareDeploy artifacts_path account provider2 constructorData st) /\
  match
    fst (declareDeploy artifacts_path account provider constructorData st),
    fst (declareDeploy artifacts_path account provider2 constructorData st)
  with
  | Fulfilled c1, Fulfilled c2 =>
      Contract_abi c1 = Contract_abi c2 /\
      Contract_address c1 = Contract_address c2 /\
      Contract_providerOrAccount c1 = provider /\
      Contract_providerOrAccount c2 = provider2
  | Rejected e1, Rejected e2 => e1 = e2
  | Pending, Pending => True
  | _, _ => False
  end.
Proof.
  run_script.
  destruct (load_artifacts artifacts_path "arkchain_orderbook" (outside st))
    as [artifacts | e]; [| simpl; auto].
  destruct (compile (new_CallData (abi (sierra artifacts))) "constructor"
              [("admin", admin constructorData)]) as [contractConstructor | e];
    [| simpl; auto].
  destruct (declareAndDeploy account _ (outside st)) as [[deployR | e | ] o];
    simpl; auto.
Qed.

End DeployerMore.

(** * The further statements on the concrete world *)

(** X5 on the listing paid in the token 0x57a8c. *)
Lemma fulfillListing_given_currency_witness :
  exists evs,
    trace (snd (@fulfillListing Demo.collaborators (Some Demo.wallet) (Some Demo.config)
                  Demo.bigint_listing Demo.start)) = evs /\
    forall c g,
      In (CallFulfillListingCore c g) evs ->
      ApproveInfo.currencyAddress (FulfillListingCoreParameters.approveInfo g)
        = JS.Str "0x57a8c".
Proof.
  destruct (@fulfillListing_given_currency Demo.collaborators Demo.wallet
              (Some Demo.config) Demo.bigint_listing Demo.start eq_refl)
    as (evs & Htrace & _ & _ & Hfulfil).
  exists evs. split; [exact Htrace | exact Hfulfil].
Defined.

(** X6 on the demo listing, run without a configuration. *)
Lemma fulfillListing_no_currency_no_config_witness :
  exists evs,
    trace (snd (@fulfillListing Demo.collaborators (Some Demo.wallet) None
                  Demo.listing Demo.start)) = evs /\
    (exists a0, In (CallApproveERC20 a0) evs) /\
    forall a0,
      In (CallApproveERC20 a0) evs ->
      ApproveERC20Parameters.currencyAddress a0 = JS.Undefined.
Proof.
  destruct (@fulfillListing_no_currency_no_config Demo.collaborators Demo.wallet None
              Demo.listing Demo.start eq_refl eq_refl)
    as (evs & Htrace & Hcalled & Happrove & _).
  exists evs. split; [exact Htrace |]. split; [exact Hcalled | exact Happrove].
Defined.

(** X7: the demo listing bought from the first render and bought again
    after a run that failed for want of a configuration. *)
Lemma fulfillListing_starts_afresh_witness :
  status (snd (@fulfillListing Demo.collaborators (Some Demo.wallet) (Some Demo.config)
                 Demo.listing
                 (snd (@fulfillListing Demo.collaborators (Some Demo.wallet) None
                         Demo.listing Demo.start))))
    = status (snd (@fulfillListing Demo.collaborators (Some Demo.wallet) (Some Demo.config)
                     Demo.listing Demo.start)).
Proof.
  apply (@fulfillListing_starts_afresh Demo.collaborators Demo.wallet (Some Demo.config)
           Demo.listing Demo.start
           (snd (@fulfillListing Demo.collaborators (Some Demo.wallet) None
                   Demo.listing Demo.start))
           eq_refl).
Defined.

(** X10 after a failed run, a change of the ledger and a run without a
    wallet. *)
Lemma reachable_status_pairs_witness :
  (status (snd (@fulfillListing Demo.collaborators None (Some Demo.config) Demo.listing
                  after_failure_later)) = Status.error /\
   stepStatus (snd (@fulfillListing Demo.collaborators None (Some Demo.config) Demo.listing
                      after_failure_later)) = StepStatus.error) /\
  (status (snd (@fulfillListing Demo.collaborators None (Some Demo.config) Demo.listing
                  after_failure_later)) = Status.idle <->
   writes (trace (snd (@fulfillListing Demo.collaborators None (Some Demo.config)
                         Demo.listing after_failure_later))) = []).
Proof.
  assert (Hreach :
            @reachable Demo.collaborators
              (snd (@fulfillListing Demo.collaborators None (Some Demo.config) Demo.listing
                      after_failure_later))).
  { apply (@reach_invocation Demo.collaborators).
    - apply (@reach_outside Demo.collaborators after_failure later_ledger).
      apply (@reach_invocation Demo.collaborators).
      + apply (@reach_first_render Demo.collaborators Demo.empty_ledger).
      + simpl. discriminate.
    - simpl. discriminate. }
  destruct (@reachable_status_pairs Demo.collaborators _ Hreach) as [_ Hidle].
  split; [split; reflexivity | exact Hidle].
Defined.

(** X11 on a path without artifacts. *)
Lemma declareDeploy_load_failure_witness :
  @declareDeploy Demo.toolchain "./nowhere" Demo.wallet Demo.provider
    Demo.constructorData Demo.script_start =
    (Rejected (JS.new_Error "ENOENT"), Demo.script_start).
Proof.
  apply (@declareDeploy_load_failure Demo.toolchain "./nowhere" Demo.wallet Demo.provider
           Demo.constructorData Demo.script_start (JS.new_Error "ENOENT") eq_refl).
Defined.

(** X12 on constructor data without an admin. *)
Lemma declareDeploy_compile_failure_witness :
  @declareDeploy Demo.toolchain "./artifacts" Demo.wallet Demo.provider
    {| admin := JS.Undefined |} Demo.script_start =
    (Rejected (JS.new_Error "Validate: arg admin should be a felt"), Demo.script_start).
Proof.
  apply (@declareDeploy_compile_failure Demo.toolchain "./artifacts" Demo.wallet
           Demo.provider {| admin := JS.Undefined |} Demo.script_start
           Demo.orderbook_artifacts
           (JS.new_Error "Validate: arg admin should be a felt") eq_refl eq_refl).
Defined.

(** X13 on the account the chain does not know. *)
Lemma declareDeploy_deploy_failure_witness :
  fst (@declareDeploy Demo.toolchain "./artifacts" unknown_account Demo.provider
         Demo.constructorData Demo.script_start)
    = Rejected (JS.new_Error "Account not found.") /\
  List.length
    (requests (snd (@declareDeploy Demo.toolchain "./artifacts" unknown_account
                      Demo.provider Demo.constructorData Demo.script_start))) = 1%nat.
Proof.
  rewrite (@declareDeploy_deploy_failure Demo.toolchain "./artifacts" unknown_account
             Demo.provider Demo.constructorData Demo.script_start
             Demo.orderbook_artifacts ["0xad"] (JS.new_Error "Account not found.")
             0%nat eq_refl eq_refl eq_refl).
  split; reflexivity.
Defined.

